(** * demo-customer-app: a shallow embedding of [src/main.rs]

    The service keeps three in-memory collections (projects, tasks,
    customers), each a [Vec] behind an [Arc<RwLock<_>>], and exposes
    create / list / get-by-id handlers over them.

    Modelling choices:
    - [Uuid] is its 128-bit value, [DateTime<Utc>] a timestamp in
      nanoseconds, [f64] its 64-bit pattern (the handlers only copy it),
      [i32] a [Z] and [String] a Rocq [string].
    - The two environment sources of a create handler, [Uuid::new_v4()] and
      [Utc::now()], are the values they returned for that request: they are
      arguments of the handler (a create operation carries its draws).
    - A handler runs with its lock held, so a sequential handler is a
      function [AppState -> AppState * response]; the interleaving of the
      two phases of concurrent creates (build the item, then push under the
      write lock) is a step relation at the end of the file. *)

From Stdlib Require Import List ZArith String Bool Lia Permutation.
Import ListNotations.
Open Scope Z_scope.

Definition Uuid := Z.
Definition DateTime := Z.
Definition f64 := Z.
Definition i32 := Z.
Definition StatusCode := Z.

Definition CREATED : StatusCode := 201.
Definition NOT_FOUND : StatusCode := 404.

(** [Result<Json<T>, StatusCode>] as returned by the get handlers. *)
Inductive Result (A E : Type) : Type :=
| Ok : A -> Result A E
| Err : E -> Result A E.
Arguments Ok {A E} _.
Arguments Err {A E} _.

(** ** Entities and requests *)

Module Project.
Record t := mk {
  id : Uuid;
  name : string;
  status : string;
  budget : f64;
  created_at : DateTime
}.
End Project.

Module Task.
Record t := mk {
  id : Uuid;
  title : string;
  completed : bool;
  priority : i32;
  created_at : DateTime
}.
End Task.

Module Customer.
Record t := mk {
  id : Uuid;
  name : string;
  email : string;
  active : bool;
  created_at : DateTime
}.
End Customer.

Module CreateProjectRequest.
Record t := mk { name : string; status : string; budget : f64 }.
End CreateProjectRequest.

Module CreateTaskRequest.
Record t := mk { title : string; completed : bool; priority : i32 }.
End CreateTaskRequest.

Module CreateCustomerRequest.
Record t := mk { name : string; email : string; active : bool }.
End CreateCustomerRequest.

(** ** Application state *)

(** [AppState]: the three independent locked vectors, seen through their
    contents. *)
Record AppState := mkAppState {
  projects : list Project.t;
  tasks : list Task.t;
  customers : list Customer.t
}.

(** [AppState::new]. *)
Definition AppState_new : AppState :=
  {| projects := []; tasks := []; customers := [] |}.

(** ** Handlers *)

(** The [item] built by [create_project] before it takes the write lock. *)
Definition build_project (u : Uuid) (now : DateTime)
    (payload : CreateProjectRequest.t) : Project.t :=
  {| Project.id := u;
     Project.name := CreateProjectRequest.name payload;
     Project.status := CreateProjectRequest.status payload;
     Project.budget := CreateProjectRequest.budget payload;
     Project.created_at := now |}.

Definition build_task (u : Uuid) (now : DateTime)
    (payload : CreateTaskRequest.t) : Task.t :=
  {| Task.id := u;
     Task.title := CreateTaskRequest.title payload;
     Task.completed := CreateTaskRequest.completed payload;
     Task.priority := CreateTaskRequest.priority payload;
     Task.created_at := now |}.

Definition build_customer (u : Uuid) (now : DateTime)
    (payload : CreateCustomerRequest.t) : Customer.t :=
  {| Customer.id := u;
     Customer.name := CreateCustomerRequest.name payload;
     Customer.email := CreateCustomerRequest.email payload;
     Customer.active := CreateCustomerRequest.active payload;
     Customer.created_at := now |}.

Definition list_projects (state : AppState) : list Project.t :=
  projects state.

(** [create_project]: build the item, [push] a clone, return [201] and the
    item. *)
Definition create_project (u : Uuid) (now : DateTime)
    (payload : CreateProjectRequest.t) (state : AppState)
    : AppState * (StatusCode * Project.t) :=
  let item := build_project u now payload in
  ({| projects := projects state ++ [item];
      tasks := tasks state;
      customers := customers state |}, (CREATED, item)).

(** [get_project]: [items.iter().find(|i| i.id == id)]. *)
Definition get_project (state : AppState) (id : Uuid)
    : Result Project.t StatusCode :=
  match find (fun i => Project.id i =? id) (projects state) with
  | Some item => Ok item
  | None => Err NOT_FOUND
  end.

Definition list_tasks (state : AppState) : list Task.t :=
  tasks state.

Definition create_task (u : Uuid) (now : DateTime)
    (payload : CreateTaskRequest.t) (state : AppState)
    : AppState * (StatusCode * Task.t) :=
  let item := build_task u now payload in
  ({| projects := projects state;
      tasks := tasks state ++ [item];
      customers := customers state |}, (CREATED, item)).

Definition get_task (state : AppState) (id : Uuid)
    : Result Task.t StatusCode :=
  match find (fun i => Task.id i =? id) (tasks state) with
  | Some item => Ok item
  | None => Err NOT_FOUND
  end.

Definition list_customers (state : AppState) : list Customer.t :=
  customers state.

Definition create_customer (u : Uuid) (now : DateTime)
    (payload : CreateCustomerRequest.t) (state : AppState)
    : AppState * (StatusCode * Customer.t) :=
  let item := build_customer u now payload in
  ({| projects := projects state;
      tasks := tasks state;
      customers := customers state ++ [item] |}, (CREATED, item)).

Definition get_customer (state : AppState) (id : Uuid)
    : Result Customer.t StatusCode :=
  match find (fun i => Customer.id i =? id) (customers state) with
  | Some item => Ok item
  | None => Err NOT_FOUND
  end.

(** ** The router: one operation per route *)

Inductive Op :=
| ListProjects
| CreateProject (u : Uuid) (now : DateTime) (payload : CreateProjectRequest.t)
| GetProject (id : Uuid)
| ListTasks
| CreateTask (u : Uuid) (now : DateTime) (payload : CreateTaskRequest.t)
| GetTask (id : Uuid)
| ListCustomers
| CreateCustomer (u : Uuid) (now : DateTime) (payload : CreateCustomerRequest.t)
| GetCustomer (id : Uuid).

Inductive Response :=
| RProjects (items : list Project.t)
| RCreatedProject (code : StatusCode) (item : Project.t)
| RProject (r : Result Project.t StatusCode)
| RTasks (items : list Task.t)
| RCreatedTask (code : StatusCode) (item : Task.t)
| RTask (r : Result Task.t StatusCode)
| RCustomers (items : list Customer.t)
| RCreatedCustomer (code : StatusCode) (item : Customer.t)
| RCustomer (r : Result Customer.t StatusCode).

Definition step (state : AppState) (op : Op) : AppState * Response :=
  match op with
  | ListProjects => (state, RProjects (list_projects state))
  | CreateProject u now p =>
      let '(st', (c, item)) := create_project u now p state in
      (st', RCreatedProject c item)
  | GetProject id => (state, RProject (get_project state id))
  | ListTasks => (state, RTasks (list_tasks state))
  | CreateTask u now p =>
      let '(st', (c, item)) := create_task u now p state in
      (st', RCreatedTask c item)
  | GetTask id => (state, RTask (get_task state id))
  | ListCustomers => (state, RCustomers (list_customers state))
  | CreateCustomer u now p =>
      let '(st', (c, item)) := create_customer u now p state in
      (st', RCreatedCustomer c item)
  | GetCustomer id => (state, RCustomer (get_customer state id))
  end.

(** Requests served one after the other. *)
Fixpoint run (state : AppState) (ops : list Op) : AppState * list Response :=
  match ops with
  | [] => (state, [])
  | op :: rest =>
      let '(st1, r) := step state op in
      let '(st2, rs) := run st1 rest in
      (st2, r :: rs)
  end.

(** The entities returned by the create responses, in order. *)
Fixpoint created_projects (rs : list Response) : list Project.t :=
  match rs with
  | [] => []
  | RCreatedProject _ x :: rest => x :: created_projects rest
  | _ :: rest => created_projects rest
  end.

Fixpoint created_tasks (rs : list Response) : list Task.t :=
  match rs with
  | [] => []
  | RCreatedTask _ x :: rest => x :: created_tasks rest
  | _ :: rest => created_tasks rest
  end.

Fixpoint created_customers (rs : list Response) : list Customer.t :=
  match rs with
  | [] => []
  | RCreatedCustomer _ x :: rest => x :: created_customers rest
  | _ :: rest => created_customers rest
  end.

(** Each create's UUID draw differs from the ids already in its store when
    that request is served. *)
Fixpoint fresh_draws (state : AppState) (ops : list Op) : Prop :=
  match ops with
  | [] => True
  | op :: rest =>
      match op with
      | CreateProject u _ _ => ~ In u (map Project.id (projects state))
      | CreateTask u _ _ => ~ In u (map Task.id (tasks state))
      | CreateCustomer u _ _ => ~ In u (map Customer.id (customers state))
      | _ => True
      end /\ fresh_draws (fst (step state op)) rest
  end.

(** The create requests of each kind in a sequence of requests, with their
    draws. *)
Fixpoint project_creates (ops : list Op)
    : list (Uuid * DateTime * CreateProjectRequest.t) :=
  match ops with
  | [] => []
  | CreateProject u now p :: rest => (u, now, p) :: project_creates rest
  | _ :: rest => project_creates rest
  end.

Fixpoint task_creates (ops : list Op)
    : list (Uuid * DateTime * CreateTaskRequest.t) :=
  match ops with
  | [] => []
  | CreateTask u now p :: rest => (u, now, p) :: task_creates rest
  | _ :: rest => task_creates rest
  end.

Fixpoint customer_creates (ops : list Op)
    : list (Uuid * DateTime * CreateCustomerRequest.t) :=
  match ops with
  | [] => []
  | CreateCustomer u now p :: rest => (u, now, p) :: customer_creates rest
  | _ :: rest => customer_creates rest
  end.

Inductive Kind := KProject | KTask | KCustomer.

(** The store a route works on. *)
Definition op_kind (op : Op) : Kind :=
  match op with
  | ListProjects | CreateProject _ _ _ | GetProject _ => KProject
  | ListTasks | CreateTask _ _ _ | GetTask _ => KTask
  | ListCustomers | CreateCustomer _ _ _ | GetCustomer _ => KCustomer
  end.

Definition is_create (op : Op) : bool :=
  match op with
  | CreateProject _ _ _ | CreateTask _ _ _ | CreateCustomer _ _ _ => true
  | _ => false
  end.

Definition OK_STATUS : StatusCode := 200.

(** The HTTP status each handler's [impl IntoResponse] answers with: a bare
    [Json] is 200, [(StatusCode::CREATED, Json(item))] its code, an
    [Ok(Json)] 200 and an [Err(code)] that code. *)
Definition response_status (r : Response) : StatusCode :=
  match r with
  | RProjects _ | RTasks _ | RCustomers _ => OK_STATUS
  | RCreatedProject c _ | RCreatedTask c _ | RCreatedCustomer c _ => c
  | RProject (Ok _) | RTask (Ok _) | RCustomer (Ok _) => OK_STATUS
  | RProject (Err c) | RTask (Err c) | RCustomer (Err c) => c
  end.

(** ** Concurrent creates of one kind

    A create handler has two phases: it builds its [item] (drawing the id
    and the timestamp) without any lock, then runs
    [state.xs.write().await.push(item.clone())], which the [RwLock] makes
    atomic.  Each in-flight handler is a [Thread]; a step advances one of
    them, in any interleaving. *)
Module Concurrent.
Section Concurrent.
Context {Req T : Type} (build : Uuid -> DateTime -> Req -> T).

Inductive Thread :=
| Pending (u : Uuid) (now : DateTime) (payload : Req)
| Built (item : T)
| Finished.

Inductive cstep : list Thread * list T -> list Thread * list T -> Prop :=
| cs_build pre post u now payload store :
    cstep (pre ++ Pending u now payload :: post, store)
          (pre ++ Built (build u now payload) :: post, store)
| cs_push pre post item store :
    cstep (pre ++ Built item :: post, store)
          (pre ++ Finished :: post, store ++ [item]).

Inductive csteps : list Thread * list T -> list Thread * list T -> Prop :=
| cs_refl c : csteps c c
| cs_trans c1 c2 c3 : cstep c1 c2 -> csteps c2 c3 -> csteps c1 c3.

(** The item a thread will push, if it has not pushed yet. *)
Definition thread_item (th : Thread) : list T :=
  match th with
  | Pending u now payload => [build u now payload]
  | Built item => [item]
  | Finished => []
  end.

Definition is_finished (th : Thread) : bool :=
  match th with Finished => true | _ => false end.

(** One handler per request, none started yet. *)
Definition spawn (reqs : list (Uuid * DateTime * Req)) : list Thread :=
  map (fun '(u, now, payload) => Pending u now payload) reqs.

Definition built_items (reqs : list (Uuid * DateTime * Req)) : list T :=
  map (fun '(u, now, payload) => build u now payload) reqs.

Definition draw_ids (reqs : list (Uuid * DateTime * Req)) : list Uuid :=
  map (fun '(u, _, _) => u) reqs.

(** What has been pushed since [store0], plus what is still to be pushed,
    is a rearrangement of the items the threads build. *)
Definition pushed_inv (items : list T) (store0 : list T)
    (c : list Thread * list T) : Prop :=
  exists done, snd c = store0 ++ done /\
    Permutation (done ++ flat_map thread_item (fst c)) items.

End Concurrent.
End Concurrent.

(** * Lemmas on the linear scan [items.iter().find(|i| i.id == id)] *)

Section FindById.
Context {T : Type} (id_of : T -> Uuid).

Lemma find_id_none (l : list T) (id : Uuid) :
  find (fun i => id_of i =? id) l = None <-> ~ In id (map id_of l).
Proof.
  induction l as [|x l IH]; simpl.
  - tauto.
  - destruct (Z.eqb_spec (id_of x) id) as [E|E].
    + split; [discriminate | intro H; exfalso; apply H; left; exact E].
    + rewrite IH. split.
      * intros H [H'|H']; [congruence | exact (H H')].
      * intros H H'; apply H; right; exact H'.
Qed.

Lemma find_id_some (l : list T) (id : Uuid) (p : T) :
  find (fun i => id_of i =? id) l = Some p <->
  exists pre post, l = pre ++ p :: post /\ id_of p = id /\
                   Forall (fun x => id_of x <> id) pre.
Proof.
  revert p; induction l as [|x l IH]; intro p; simpl.
  - split; [discriminate|].
    intros (pre & post & Hl & _); destruct pre; discriminate.
  - destruct (Z.eqb_spec (id_of x) id) as [E|E].
    + split.
      * intro H; injection H as <-. exists [], l; auto.
      * intros (pre & post & Hl & Hid & Hf).
        destruct pre as [|y pre]; simpl in Hl; injection Hl as -> ->.
        -- reflexivity.
        -- inversion Hf; contradiction.
    + rewrite IH. split.
      * intros (pre & post & -> & Hid & Hf).
        exists (x :: pre), post; simpl; auto.
      * intros (pre & post & Hl & Hid & Hf).
        destruct pre as [|y pre]; simpl in Hl; injection Hl as -> ->.
        -- contradiction.
        -- inversion Hf; subst. exists pre, post; auto.
Qed.

Lemma find_id_fresh_app (l rest : list T) (x : T) :
  ~ In (id_of x) (map id_of l) ->
  find (fun i => id_of i =? id_of x) (l ++ x :: rest) = Some x.
Proof.
  intro Hfresh. apply find_id_some. exists l, rest. repeat split.
  apply Forall_forall. intros y Hy E. apply Hfresh.
  rewrite <- E. apply in_map, Hy.
Qed.

End FindById.

(** * Lemmas on sequences of requests *)

Lemma run_cons (st : AppState) (op : Op) (ops : list Op) :
  run st (op :: ops) =
  (fst (run (fst (step st op)) ops),
   snd (step st op) :: snd (run (fst (step st op)) ops)).
Proof.
  simpl. destruct (step st op) as [st1 r]. simpl.
  destruct (run st1 ops) as [st2 rs]. reflexivity.
Qed.

Lemma step_projects (st : AppState) (op : Op) :
  projects (fst (step st op)) =
  projects st ++ created_projects [snd (step st op)].
Proof. destruct op; simpl; rewrite ?app_nil_r; reflexivity. Qed.

Lemma step_tasks (st : AppState) (op : Op) :
  tasks (fst (step st op)) = tasks st ++ created_tasks [snd (step st op)].
Proof. destruct op; simpl; rewrite ?app_nil_r; reflexivity. Qed.

Lemma step_customers (st : AppState) (op : Op) :
  customers (fst (step st op)) =
  customers st ++ created_customers [snd (step st op)].
Proof. destruct op; simpl; rewrite ?app_nil_r; reflexivity. Qed.

Lemma created_projects_cons (r : Response) (rs : list Response) :
  created_projects (r :: rs) = created_projects [r] ++ created_projects rs.
Proof. destruct r; reflexivity. Qed.

Lemma created_tasks_cons (r : Response) (rs : list Response) :
  created_tasks (r :: rs) = created_tasks [r] ++ created_tasks rs.
Proof. destruct r; reflexivity. Qed.

Lemma created_customers_cons (r : Response) (rs : list Response) :
  created_customers (r :: rs) = created_customers [r] ++ created_customers rs.
Proof. destruct r; reflexivity. Qed.

Ltac run_store ops step_lemma cons_lemma :=
  let st := fresh "st" in
  let IH := fresh "IH" in
  induction ops as [|op ops IH]; intro st;
  [ simpl; rewrite app_nil_r; reflexivity
  | rewrite run_cons; cbn [fst snd];
    rewrite IH, step_lemma, (cons_lemma _ (snd (run _ ops))), app_assoc;
    reflexivity ].

Lemma run_projects (ops : list Op) (st : AppState) :
  projects (fst (run st ops)) =
  projects st ++ created_projects (snd (run st ops)).
Proof. revert st; run_store ops step_projects created_projects_cons. Qed.

Lemma run_tasks (ops : list Op) (st : AppState) :
  tasks (fst (run st ops)) = tasks st ++ created_tasks (snd (run st ops)).
Proof. revert st; run_store ops step_tasks created_tasks_cons. Qed.

Lemma run_customers (ops : list Op) (st : AppState) :
  customers (fst (run st ops)) =
  customers st ++ created_customers (snd (run st ops)).
Proof. revert st; run_store ops step_customers created_customers_cons. Qed.

Lemma nodup_snoc (l : list Uuid) (u : Uuid) :
  NoDup l -> ~ In u l -> NoDup (l ++ [u]).
Proof.
  intros Hnd Hu. apply NoDup_app; [exact Hnd | repeat constructor; auto |].
  intros a Ha [<- | []]. exact (Hu Ha).
Qed.

Ltac run_nodup ops step_lemma :=
  let st := fresh "st" in
  let IH := fresh "IH" in
  let Hf := fresh "Hf" in
  let Hnd := fresh "Hnd" in
  induction ops as [|op ops IH]; intros st Hf Hnd; [exact Hnd|];
  destruct Hf as [Hf Hrest]; rewrite run_cons; cbn [fst];
  apply IH; [exact Hrest|]; rewrite step_lemma;
  destruct op; cbn; rewrite ?app_nil_r; try exact Hnd;
  rewrite map_app; apply nodup_snoc; assumption.

Lemma run_projects_nodup (ops : list Op) (st : AppState) :
  fresh_draws st ops -> NoDup (map Project.id (projects st)) ->
  NoDup (map Project.id (projects (fst (run st ops)))).
Proof. revert st; run_nodup ops step_projects. Qed.

Lemma run_tasks_nodup (ops : list Op) (st : AppState) :
  fresh_draws st ops -> NoDup (map Task.id (tasks st)) ->
  NoDup (map Task.id (tasks (fst (run st ops)))).
Proof. revert st; run_nodup ops step_tasks. Qed.

Lemma run_customers_nodup (ops : list Op) (st : AppState) :
  fresh_draws st ops -> NoDup (map Customer.id (customers st)) ->
  NoDup (map Customer.id (customers (fst (run st ops)))).
Proof. revert st; run_nodup ops step_customers. Qed.

(** * Lemmas on concurrent creates *)

Section ConcurrentFacts.
Import Concurrent.
Context {Req T : Type} (build : Uuid -> DateTime -> Req -> T).

Lemma cstep_inv items store0 c c' :
  cstep build c c' -> pushed_inv build items store0 c -> pushed_inv build items store0 c'.
Proof.
  unfold pushed_inv. intros Hs (done & Hst & Hp). destruct Hs; cbn [fst snd] in *.
  - exists done. split; [exact Hst|].
    rewrite flat_map_app in *. exact Hp.
  - exists (done ++ [item]). split; [rewrite Hst, app_assoc; reflexivity|].
    rewrite flat_map_app in *. cbn in *.
    eapply Permutation_trans; [|exact Hp].
    rewrite <- app_assoc. apply Permutation_app_head.
    cbn. apply Permutation_middle.
Qed.

Lemma csteps_inv items store0 c c' :
  csteps build c c' -> pushed_inv build items store0 c -> pushed_inv build items store0 c'.
Proof.
  induction 1 as [c | c1 c2 c3 Hs _ IH]; intro H; [exact H|].
  apply IH, (cstep_inv _ _ _ _ Hs H).
Qed.

Lemma spawn_items reqs :
  flat_map (thread_item build) (spawn (T:=T) reqs) = built_items build reqs.
Proof.
  induction reqs as [|[[u now] payload] reqs IH]; [reflexivity|].
  exact (f_equal (cons (build u now payload)) IH).
Qed.

Lemma finished_items (ths : list (Thread (Req:=Req) (T:=T))) :
  forallb (is_finished (Req:=Req) (T:=T)) ths = true -> flat_map (thread_item build) ths = [].
Proof.
  induction ths as [|th ths IH]; [reflexivity|].
  cbn. destruct th; cbn; try discriminate. exact IH.
Qed.

Lemma all_pushed reqs store0 ths store :
  csteps build (spawn (T:=T) reqs, store0) (ths, store) ->
  forallb (is_finished (Req:=Req) (T:=T)) ths = true ->
  exists done, store = store0 ++ done /\ Permutation done (built_items build reqs).
Proof.
  intros Hr Hfin.
  destruct (csteps_inv (built_items build reqs) store0 _ _ Hr) as (done & Hst & Hp).
  - exists []. split; [symmetry; apply app_nil_r|].
    cbn [fst app]. rewrite spawn_items. reflexivity.
  - exists done. split; [exact Hst|].
    cbn [fst] in Hp. rewrite finished_items, app_nil_r in Hp by exact Hfin.
    exact Hp.
Qed.

End ConcurrentFacts.

Ltac run_created ops :=
  let st := fresh "st" in
  let IH := fresh "IH" in
  induction ops as [|op ops IH]; intro st; [reflexivity|];
  rewrite run_cons; cbn [snd]; destruct op; cbn [step create_project
    create_task create_customer fst snd]; cbn; rewrite IH; reflexivity.

Lemma run_created_projects (ops : list Op) (st : AppState) :
  created_projects (snd (run st ops)) =
  Concurrent.built_items build_project (project_creates ops).
Proof. revert st; run_created ops. Qed.

Lemma run_created_tasks (ops : list Op) (st : AppState) :
  created_tasks (snd (run st ops)) =
  Concurrent.built_items build_task (task_creates ops).
Proof. revert st; run_created ops. Qed.

Lemma run_created_customers (ops : list Op) (st : AppState) :
  created_customers (snd (run st ops)) =
  Concurrent.built_items build_customer (customer_creates ops).
Proof. revert st; run_created ops. Qed.

(** * The claims *)

(** C10: on a freshly constructed [AppState], before any create, the list
    handler of each of the three kinds returns the empty sequence. *)
Theorem fresh_state_lists_empty :
  list_projects AppState_new = [] /\ list_tasks AppState_new = [] /\
  list_customers AppState_new = [].
Proof. repeat split. Qed.

(** C2: starting from [AppState::new], after any sequence of requests, the
    list handler of each kind returns exactly the entities returned by the
    successful creates of that kind, in the order of those creates; there
    is one per create request of that kind (the items built from the
    requests' payloads and draws, in request order). *)
Theorem list_after_creates (ops : list Op) :
  let '(st, rs) := run AppState_new ops in
  (list_projects st = created_projects rs /\
   created_projects rs = Concurrent.built_items build_project (project_creates ops) /\
   List.length (list_projects st) = List.length (project_creates ops)) /\
  (list_tasks st = created_tasks rs /\
   created_tasks rs = Concurrent.built_items build_task (task_creates ops) /\
   List.length (list_tasks st) = List.length (task_creates ops)) /\
  (list_customers st = created_customers rs /\
   created_customers rs = Concurrent.built_items build_customer (customer_creates ops) /\
   List.length (list_customers st) = List.length (customer_creates ops)).
Proof.
  pose proof (run_projects ops AppState_new) as Hp.
  pose proof (run_tasks ops AppState_new) as Ht.
  pose proof (run_customers ops AppState_new) as Hc.
  pose proof (run_created_projects ops AppState_new) as Cp.
  pose proof (run_created_tasks ops AppState_new) as Ct.
  pose proof (run_created_customers ops AppState_new) as Cc.
  destruct (run AppState_new ops) as [st rs]; cbn [fst snd] in *.
  unfold list_projects, list_tasks, list_customers, Concurrent.built_items in *.
  rewrite Hp, Ht, Hc, Cp, Ct, Cc. cbn [projects tasks customers AppState_new app].
  rewrite !length_map. repeat split.
Qed.

(** C1 (as amended): when the id drawn by [Uuid::new_v4()] for a create
    is not already the id of a stored entity of that kind, get-by-id with
    the returned entity's id, right after the create or after any further
    requests, returns that entity. *)
Theorem create_then_get_fresh :
  (forall st u now payload ops,
     ~ In u (map Project.id (projects st)) ->
     let '(st1, (_, item)) := create_project u now payload st in
     get_project (fst (run st1 ops)) (Project.id item) = Ok item) /\
  (forall st u now payload ops,
     ~ In u (map Task.id (tasks st)) ->
     let '(st1, (_, item)) := create_task u now payload st in
     get_task (fst (run st1 ops)) (Task.id item) = Ok item) /\
  (forall st u now payload ops,
     ~ In u (map Customer.id (customers st)) ->
     let '(st1, (_, item)) := create_customer u now payload st in
     get_customer (fst (run st1 ops)) (Customer.id item) = Ok item).
Proof.
  split; [|split]; intros st u now payload ops Hfresh.
  - lazy beta iota zeta delta [create_project].
    unfold get_project. rewrite run_projects. cbn [projects].
    rewrite <- app_assoc. cbn [app].
    rewrite find_id_fresh_app; [reflexivity | exact Hfresh].
  - lazy beta iota zeta delta [create_task].
    unfold get_task. rewrite run_tasks. cbn [tasks].
    rewrite <- app_assoc. cbn [app].
    rewrite find_id_fresh_app; [reflexivity | exact Hfresh].
  - lazy beta iota zeta delta [create_customer].
    unfold get_customer. rewrite run_customers. cbn [customers].
    rewrite <- app_assoc. cbn [app].
    rewrite find_id_fresh_app; [reflexivity | exact Hfresh].
Qed.

(** Witness of C1: a project created with a fresh id on a store holding one
    project is found again after a further task create. *)
Lemma create_then_get_fresh_witness :
  ~ In 8 (map Project.id
            (projects (fst (create_project 7 0
               (CreateProjectRequest.mk "alpha" "open" 10) AppState_new)))) /\
  get_project
    (fst (run (fst (create_project 8 1 (CreateProjectRequest.mk "beta" "open" 20)
                      (fst (create_project 7 0
                         (CreateProjectRequest.mk "alpha" "open" 10) AppState_new))))
              [CreateTask 1 2 (CreateTaskRequest.mk "t" false 2)]))
    8 = Ok (build_project 8 1 (CreateProjectRequest.mk "beta" "open" 20)).
Proof.
  assert (H : ~ In 8 (map Project.id
            (projects (fst (create_project 7 0
               (CreateProjectRequest.mk "alpha" "open" 10) AppState_new))))).
  { cbn. intros [E | []]. discriminate E. }
  split; [exact H|].
  exact (proj1 create_then_get_fresh _ 8 1
           (CreateProjectRequest.mk "beta" "open" 20)
           [CreateTask 1 2 (CreateTaskRequest.mk "t" false 2)] H).
Defined.

(** C1 as stated fails: two project creates whose UUID draws coincide
    (nothing in [create_project] checks the draw against the store); the
    get-by-id with the second entity's id returns the first one. *)
Lemma create_then_get_collision :
  ~ (forall st u now payload ops,
       let '(st1, (_, item)) := create_project u now payload st in
       get_project (fst (run st1 ops)) (Project.id item) = Ok item).
Proof.
  intro H.
  specialize (H (fst (create_project 7 0
                   (CreateProjectRequest.mk "alpha" "open" 10) AppState_new))
                7 1 (CreateProjectRequest.mk "beta" "open" 20) []).
  vm_compute in H. inversion H.
Qed.

(** C3 (as amended): a created entity's id is the value drawn by
    [Uuid::new_v4()] for that request, stored without any check against
    the ids already present; when every draw differs from the ids already
    stored in its kind's collection, the ids of all created entities of
    each kind are pairwise distinct. *)
Theorem created_ids_distinct_if_fresh :
  (forall u now st pp tp cp,
     Project.id (snd (snd (create_project u now pp st))) = u /\
     Task.id (snd (snd (create_task u now tp st))) = u /\
     Customer.id (snd (snd (create_customer u now cp st))) = u) /\
  (forall ops,
     fresh_draws AppState_new ops ->
     NoDup (map Project.id (list_projects (fst (run AppState_new ops)))) /\
     NoDup (map Task.id (list_tasks (fst (run AppState_new ops)))) /\
     NoDup (map Customer.id (list_customers (fst (run AppState_new ops))))).
Proof.
  split.
  - intros; repeat split.
  - intros ops Hf. unfold list_projects, list_tasks, list_customers.
    repeat split.
    + apply run_projects_nodup; [exact Hf | constructor].
    + apply run_tasks_nodup; [exact Hf | constructor].
    + apply run_customers_nodup; [exact Hf | constructor].
Qed.

(** Witness of C3: three requests whose draws are fresh. *)
Lemma created_ids_distinct_if_fresh_witness :
  fresh_draws AppState_new
    [CreateProject 7 0 (CreateProjectRequest.mk "alpha" "open" 10);
     CreateTask 7 1 (CreateTaskRequest.mk "t" false 2);
     CreateProject 8 2 (CreateProjectRequest.mk "beta" "open" 20)] /\
  NoDup (map Project.id (list_projects (fst (run AppState_new
    [CreateProject 7 0 (CreateProjectRequest.mk "alpha" "open" 10);
     CreateTask 7 1 (CreateTaskRequest.mk "t" false 2);
     CreateProject 8 2 (CreateProjectRequest.mk "beta" "open" 20)])))).
Proof.
  assert (H : fresh_draws AppState_new
    [CreateProject 7 0 (CreateProjectRequest.mk "alpha" "open" 10);
     CreateTask 7 1 (CreateTaskRequest.mk "t" false 2);
     CreateProject 8 2 (CreateProjectRequest.mk "beta" "open" 20)]).
  { cbn. intuition discriminate. }
  split; [exact H|].
  exact (proj1 (proj2 created_ids_distinct_if_fresh _ H)).
Defined.

(** C3 as stated fails: two project creates whose UUID draws coincide are
    both stored, with the same id. *)
Lemma created_ids_collision :
  ~ NoDup (map Project.id (list_projects (fst (run AppState_new
      [CreateProject 7 0 (CreateProjectRequest.mk "alpha" "open" 10);
       CreateProject 7 1 (CreateProjectRequest.mk "beta" "open" 20)])))).
Proof.
  vm_compute. intro H. inversion H as [|x l Hx _]. apply Hx. left. reflexivity.
Qed.

(** C4: a create copies every field of the request unchanged into the
    returned entity, which is also the record appended to the store; the
    request types have no [id] or [created_at] field, and these two fields
    are exactly the server's [Uuid::new_v4()] and [Utc::now()] values, the
    same whatever the request. *)
Theorem create_passes_fields :
  (forall u now payload st,
     let '(st', (code, item)) := create_project u now payload st in
     Project.name item = CreateProjectRequest.name payload /\
     Project.status item = CreateProjectRequest.status payload /\
     Project.budget item = CreateProjectRequest.budget payload /\
     Project.id item = u /\ Project.created_at item = now /\
     code = CREATED /\ projects st' = projects st ++ [item]) /\
  (forall u now payload st,
     let '(st', (code, item)) := create_task u now payload st in
     Task.title item = CreateTaskRequest.title payload /\
     Task.completed item = CreateTaskRequest.completed payload /\
     Task.priority item = CreateTaskRequest.priority payload /\
     Task.id item = u /\ Task.created_at item = now /\
     code = CREATED /\ tasks st' = tasks st ++ [item]) /\
  (forall u now payload st,
     let '(st', (code, item)) := create_customer u now payload st in
     Customer.name item = CreateCustomerRequest.name payload /\
     Customer.email item = CreateCustomerRequest.email payload /\
     Customer.active item = CreateCustomerRequest.active payload /\
     Customer.id item = u /\ Customer.created_at item = now /\
     code = CREATED /\ customers st' = customers st ++ [item]).
Proof. repeat split. Qed.

Lemma get_found (A : Type) (id_of : A -> Uuid) (l : list A) (id : Uuid) :
  (exists p, find (fun i => id_of i =? id) l = Some p) <-> In id (map id_of l).
Proof.
  split.
  - intros (p & Hp). apply find_id_some in Hp as (pre & post & -> & <- & _).
    apply in_map, in_or_app. right. left. reflexivity.
  - intro Hin. destruct (find (fun i => id_of i =? id) l) as [p|] eqn:E.
    + exists p; reflexivity.
    + apply find_id_none in E. contradiction.
Qed.

Lemma get_outcome (A : Type) (id_of : A -> Uuid) (l : list A) (id : Uuid) :
  ((match find (fun i => id_of i =? id) l with
    | Some item => Ok item
    | None => Err NOT_FOUND
    end) = Err NOT_FOUND <-> ~ In id (map id_of l)) /\
  ((exists p, (match find (fun i => id_of i =? id) l with
               | Some item => Ok item
               | None => Err NOT_FOUND
               end) = Ok p) <-> In id (map id_of l)).
Proof.
  rewrite <- find_id_none, <- get_found.
  destruct (find (fun i => id_of i =? id) l) as [p|].
  - split; split; try discriminate.
    + intros (q & Hq); injection Hq as <-; exists p; reflexivity.
    + intros (q & Hq); injection Hq as <-; exists p; reflexivity.
  - split; split; try reflexivity.
    + intros (q & Hq); discriminate.
    + intros (q & Hq); discriminate.
Qed.

(** C5: get-by-id answers not-found (status 404) exactly when no stored
    entity of that kind has the id, and returns a found entity exactly when
    one has it. *)
Theorem get_not_found_iff_absent :
  NOT_FOUND = 404 /\
  (forall st id,
     (get_project st id = Err NOT_FOUND <-> ~ In id (map Project.id (projects st))) /\
     ((exists p, get_project st id = Ok p) <-> In id (map Project.id (projects st)))) /\
  (forall st id,
     (get_task st id = Err NOT_FOUND <-> ~ In id (map Task.id (tasks st))) /\
     ((exists p, get_task st id = Ok p) <-> In id (map Task.id (tasks st)))) /\
  (forall st id,
     (get_customer st id = Err NOT_FOUND <-> ~ In id (map Customer.id (customers st))) /\
     ((exists p, get_customer st id = Ok p) <-> In id (map Customer.id (customers st)))).
Proof.
  split; [reflexivity|].
  split; [|split]; intros st id; apply get_outcome.
Qed.

Lemma get_ok (A : Type) (id_of : A -> Uuid) (l : list A) (id : Uuid) (p : A) :
  (match find (fun i => id_of i =? id) l with
   | Some item => Ok item
   | None => Err NOT_FOUND
   end) = Ok p <->
  exists pre post, l = pre ++ p :: post /\ id_of p = id /\
                   Forall (fun x => id_of x <> id) pre.
Proof.
  rewrite <- find_id_some.
  destruct (find (fun i => id_of i =? id) l) as [q|]; split; intro H;
    try discriminate; injection H as ->; reflexivity.
Qed.

(** C6: get-by-id returns a record exactly when the store splits as
    [pre ++ record :: post] with the record carrying the id and no record
    of [pre] carrying it: the linear scan in insertion order returns the
    first match, so among several records with that id the earliest
    inserted is returned. *)
Theorem get_returns_first_match :
  (forall st id p,
     get_project st id = Ok p <->
     exists pre post, projects st = pre ++ p :: post /\ Project.id p = id /\
                      Forall (fun x => Project.id x <> id) pre) /\
  (forall st id p,
     get_task st id = Ok p <->
     exists pre post, tasks st = pre ++ p :: post /\ Task.id p = id /\
                      Forall (fun x => Task.id x <> id) pre) /\
  (forall st id p,
     get_customer st id = Ok p <->
     exists pre post, customers st = pre ++ p :: post /\ Customer.id p = id /\
                      Forall (fun x => Customer.id x <> id) pre).
Proof. split; [|split]; intros st id p; apply get_ok. Qed.

(** C7: a request touches only the store of its own kind: the other two
    stores are unchanged; list and get leave the whole state unchanged; a
    create changes its own store only by appending the one record it
    returns. *)
Theorem step_frame (st : AppState) (op : Op) :
  let '(st', r) := step st op in
  (op_kind op <> KProject -> projects st' = projects st) /\
  (op_kind op <> KTask -> tasks st' = tasks st) /\
  (op_kind op <> KCustomer -> customers st' = customers st) /\
  (is_create op = false -> st' = st) /\
  (forall u now p, op = CreateProject u now p ->
     exists item, r = RCreatedProject CREATED item /\
                  projects st' = projects st ++ [item]) /\
  (forall u now p, op = CreateTask u now p ->
     exists item, r = RCreatedTask CREATED item /\
                  tasks st' = tasks st ++ [item]) /\
  (forall u now p, op = CreateCustomer u now p ->
     exists item, r = RCreatedCustomer CREATED item /\
                  customers st' = customers st ++ [item]).
Proof.
  destruct op; cbn; repeat split; intros; try congruence;
    eexists; split; reflexivity.
Qed.

(** C8: no request removes or changes a stored record: after any sequence
    of requests each store is its former contents followed by new records,
    so every record stored before is still at its position with the same
    field values. *)
Theorem stored_records_persist (st : AppState) (ops : list Op) :
  let st' := fst (run st ops) in
  (exists l, projects st' = projects st ++ l) /\
  (exists l, tasks st' = tasks st ++ l) /\
  (exists l, customers st' = customers st ++ l) /\
  (forall n x, nth_error (projects st) n = Some x ->
               nth_error (projects st') n = Some x) /\
  (forall n x, nth_error (tasks st) n = Some x ->
               nth_error (tasks st') n = Some x) /\
  (forall n x, nth_error (customers st) n = Some x ->
               nth_error (customers st') n = Some x).
Proof.
  cbv zeta. rewrite run_projects, run_tasks, run_customers.
  repeat split; try (eexists; reflexivity);
    intros n x Hx; rewrite nth_error_app1; try exact Hx;
    apply nth_error_Some; congruence.
Qed.

Section ConcurrentIds.
Import Concurrent.
Context {Req T : Type} (build : Uuid -> DateTime -> Req -> T) (id_of : T -> Uuid).
Hypothesis id_of_build : forall u now payload, id_of (build u now payload) = u.

Lemma built_ids reqs : map id_of (built_items build reqs) = draw_ids reqs.
Proof.
  induction reqs as [|[[u now] payload] reqs IH]; [reflexivity|].
  cbn. rewrite id_of_build. f_equal. exact IH.
Qed.

Lemma concurrent_outcome reqs ths store :
  csteps build (spawn (T:=T) reqs, []) (ths, store) ->
  forallb (is_finished (Req:=Req) (T:=T)) ths = true ->
  Permutation store (built_items build reqs) /\
  List.length store = List.length reqs /\
  (NoDup (draw_ids reqs) -> NoDup (map id_of store)).
Proof.
  intros Hr Hfin.
  destruct (all_pushed build reqs [] ths store Hr Hfin) as (done & -> & Hp).
  cbn [app]. split; [exact Hp|]. split.
  - rewrite (Permutation_length Hp). unfold built_items. apply length_map.
  - intro Hnd. rewrite <- built_ids in Hnd.
    apply (Permutation_NoDup (Permutation_map id_of (Permutation_sym Hp))), Hnd.
Qed.

End ConcurrentIds.

(** C9 (as amended): whatever the interleaving of K concurrent creates of
    one kind started on an empty store (each builds its item, then pushes
    it under the write lock), once all have finished the store holds
    exactly the K built items, in some order: no update is lost.  Their
    ids are pairwise distinct when the K [Uuid::new_v4()] draws are; the
    code does not check them. *)
Theorem concurrent_creates_all_pushed :
  (forall reqs ths store,
     Concurrent.csteps build_project (Concurrent.spawn reqs, []) (ths, store) ->
     forallb Concurrent.is_finished ths = true ->
     Permutation store (Concurrent.built_items build_project reqs) /\
     List.length store = List.length reqs /\
     (NoDup (Concurrent.draw_ids reqs) ->
      NoDup (map Project.id store))) /\
  (forall reqs ths store,
     Concurrent.csteps build_task (Concurrent.spawn reqs, []) (ths, store) ->
     forallb Concurrent.is_finished ths = true ->
     Permutation store (Concurrent.built_items build_task reqs) /\
     List.length store = List.length reqs /\
     (NoDup (Concurrent.draw_ids reqs) ->
      NoDup (map Task.id store))) /\
  (forall reqs ths store,
     Concurrent.csteps build_customer (Concurrent.spawn reqs, []) (ths, store) ->
     forallb Concurrent.is_finished ths = true ->
     Permutation store (Concurrent.built_items build_customer reqs) /\
     List.length store = List.length reqs /\
     (NoDup (Concurrent.draw_ids reqs) ->
      NoDup (map Customer.id store))).
Proof.
  split; [|split]; intros reqs ths store;
    apply concurrent_outcome; reflexivity.
Qed.

(** Two project creates interleaved: both build, then both push. *)
Lemma two_creates_run (u1 u2 : Uuid) (p1 p2 : CreateProjectRequest.t) :
  Concurrent.csteps build_project
    (Concurrent.spawn [(u1, 0, p1); (u2, 1, p2)], [])
    ([Concurrent.Finished; Concurrent.Finished],
     [build_project u1 0 p1; build_project u2 1 p2]).
Proof.
  eapply Concurrent.cs_trans.
  { exact (Concurrent.cs_build build_project [] [Concurrent.Pending u2 1 p2] u1 0 p1 []). }
  eapply Concurrent.cs_trans.
  { exact (Concurrent.cs_build build_project [Concurrent.Built (build_project u1 0 p1)] [] u2 1 p2 []). }
  eapply Concurrent.cs_trans.
  { exact (Concurrent.cs_push build_project [] [Concurrent.Built (build_project u2 1 p2)]
             (build_project u1 0 p1) []). }
  eapply Concurrent.cs_trans.
  { exact (Concurrent.cs_push build_project [Concurrent.Finished] []
             (build_project u2 1 p2) [build_project u1 0 p1]). }
  exact (Concurrent.cs_refl _ _).
Qed.

(** Witness of C9: two concurrent project creates with distinct draws. *)
Lemma concurrent_creates_all_pushed_witness :
  NoDup (map Project.id [build_project 7 0 (CreateProjectRequest.mk "alpha" "open" 10);
                         build_project 8 1 (CreateProjectRequest.mk "beta" "open" 20)]).
Proof.
  apply (proj1 concurrent_creates_all_pushed
           [(7, 0, CreateProjectRequest.mk "alpha" "open" 10);
            (8, 1, CreateProjectRequest.mk "beta" "open" 20)]
           [Concurrent.Finished; Concurrent.Finished]).
  - apply two_creates_run.
  - reflexivity.
  - cbn. repeat constructor; cbn; intuition discriminate.
Defined.

(** C9 as stated fails: two concurrent project creates whose draws
    coincide leave two entities with the same id in the store. *)
Lemma concurrent_creates_collision :
  Concurrent.csteps build_project
    (Concurrent.spawn [(7, 0, CreateProjectRequest.mk "alpha" "open" 10);
                       (7, 1, CreateProjectRequest.mk "beta" "open" 20)], [])
    ([Concurrent.Finished; Concurrent.Finished],
     [build_project 7 0 (CreateProjectRequest.mk "alpha" "open" 10);
      build_project 7 1 (CreateProjectRequest.mk "beta" "open" 20)]) /\
  ~ NoDup (map Project.id
             [build_project 7 0 (CreateProjectRequest.mk "alpha" "open" 10);
              build_project 7 1 (CreateProjectRequest.mk "beta" "open" 20)]).
Proof.
  split; [apply two_creates_run|].
  cbn. intro H. inversion H as [|x l Hx _]. apply Hx. left. reflexivity.
Qed.

(** * Further properties of the handlers *)

Lemma find_id_app_some (A : Type) (id_of : A -> Uuid) (l ext : list A) (id : Uuid) (p : A) :
  find (fun i => id_of i =? id) l = Some p ->
  find (fun i => id_of i =? id) (l ++ ext) = Some p.
Proof.
  induction l as [|x l IH]; cbn; [discriminate|].
  destruct (id_of x =? id); [exact (fun H => H) | exact IH].
Qed.

(** A record found by get-by-id is found again, unchanged, after any
    further requests: a successful lookup is never invalidated. *)
Theorem get_result_stable (st : AppState) (ops : list Op) :
  (forall id p, get_project st id = Ok p ->
                get_project (fst (run st ops)) id = Ok p) /\
  (forall id p, get_task st id = Ok p ->
                get_task (fst (run st ops)) id = Ok p) /\
  (forall id p, get_customer st id = Ok p ->
                get_customer (fst (run st ops)) id = Ok p).
Proof.
  unfold get_project, get_task, get_customer.
  rewrite run_projects, run_tasks, run_customers.
  repeat split; intros id p H;
    match goal with
    | H : match find ?f ?l with _ => _ end = _ |- _ =>
        destruct (find f l) as [q|] eqn:E; [|discriminate];
        rewrite (find_id_app_some _ _ _ _ _ _ E); exact H
    end.
Qed.

Lemma get_result_stable_witness :
  get_project (fst (create_project 7 0 (CreateProjectRequest.mk "alpha" "open" 10)
                      AppState_new)) 7
    = Ok (build_project 7 0 (CreateProjectRequest.mk "alpha" "open" 10)) /\
  get_project (fst (run (fst (create_project 7 0 (CreateProjectRequest.mk "alpha" "open" 10)
                                AppState_new))
                        [CreateProject 7 1 (CreateProjectRequest.mk "beta" "open" 20)]))
    7 = Ok (build_project 7 0 (CreateProjectRequest.mk "alpha" "open" 10)).
Proof.
  assert (H : get_project (fst (create_project 7 0
                (CreateProjectRequest.mk "alpha" "open" 10) AppState_new)) 7
              = Ok (build_project 7 0 (CreateProjectRequest.mk "alpha" "open" 10))).
  { reflexivity. }
  split; [exact H|].
  exact (proj1 (get_result_stable _ _) _ _ H).
Defined.

Lemma find_id_snoc (A : Type) (id_of : A -> Uuid) (l : list A) (x : A) (id : Uuid) :
  (id <> id_of x \/ In (id_of x) (map id_of l)) ->
  find (fun i => id_of i =? id) (l ++ [x]) = find (fun i => id_of i =? id) l.
Proof.
  intro Hcase.
  destruct (find (fun i => id_of i =? id) l) as [q|] eqn:E.
  - exact (find_id_app_some _ _ _ _ _ _ E).
  - pose proof E as E'. apply find_id_none in E'.
    assert (Hne : id_of x <> id)
      by (destruct Hcase as [H|H]; [congruence | intros <-; exact (E' H)]).
    clear Hcase E'.
    induction l as [|y l IH]; cbn in *.
    + apply Z.eqb_neq in Hne. rewrite Hne. reflexivity.
    + destruct (id_of y =? id); [discriminate|]. exact (IH E).
Qed.

(** A create changes the get-by-id answer of its own kind only for the id
    it drew, and only when that id was not stored yet; it does not change
    the get-by-id answers of the other two kinds. *)
Theorem create_get_other (st : AppState) (u : Uuid) (now : DateTime) (id : Uuid) :
  ((id <> u \/ In u (map Project.id (projects st))) ->
   forall payload,
     get_project (fst (create_project u now payload st)) id = get_project st id) /\
  ((id <> u \/ In u (map Task.id (tasks st))) ->
   forall payload,
     get_task (fst (create_task u now payload st)) id = get_task st id) /\
  ((id <> u \/ In u (map Customer.id (customers st))) ->
   forall payload,
     get_customer (fst (create_customer u now payload st)) id = get_customer st id) /\
  (forall pp tp cp,
     get_task (fst (create_project u now pp st)) id = get_task st id /\
     get_customer (fst (create_project u now pp st)) id = get_customer st id /\
     get_project (fst (create_task u now tp st)) id = get_project st id /\
     get_customer (fst (create_task u now tp st)) id = get_customer st id /\
     get_project (fst (create_customer u now cp st)) id = get_project st id /\
     get_task (fst (create_customer u now cp st)) id = get_task st id).
Proof.
  split; [|split; [|split]].
  - intros Hcase payload. unfold get_project. cbn [fst projects create_project].
    rewrite find_id_snoc; [reflexivity | exact Hcase].
  - intros Hcase payload. unfold get_task. cbn [fst tasks create_task].
    rewrite find_id_snoc; [reflexivity | exact Hcase].
  - intros Hcase payload. unfold get_customer. cbn [fst customers create_customer].
    rewrite find_id_snoc; [reflexivity | exact Hcase].
  - intros; repeat split.
Qed.

Lemma create_get_other_witness :
  get_project (fst (create_project 8 1 (CreateProjectRequest.mk "beta" "open" 20)
                      (fst (create_project 7 0 (CreateProjectRequest.mk "alpha" "open" 10)
                              AppState_new)))) 7
  = get_project (fst (create_project 7 0 (CreateProjectRequest.mk "alpha" "open" 10)
                        AppState_new)) 7.
Proof.
  apply (proj1 (create_get_other _ 8 1 7)). left. discriminate.
Defined.

(** From any state, each store grows by exactly the number of create
    requests of its kind. *)
Theorem store_size_after_run (st : AppState) (ops : list Op) :
  List.length (projects (fst (run st ops))) =
    (List.length (projects st) + List.length (project_creates ops))%nat /\
  List.length (tasks (fst (run st ops))) =
    (List.length (tasks st) + List.length (task_creates ops))%nat /\
  List.length (customers (fst (run st ops))) =
    (List.length (customers st) + List.length (customer_creates ops))%nat.
Proof.
  rewrite run_projects, run_tasks, run_customers,
    run_created_projects, run_created_tasks, run_created_customers.
  unfold Concurrent.built_items. rewrite !length_app, !length_map.
  repeat split.
Qed.

Lemma found_in_extension (A : Type) (id_of : A -> Uuid) (l c : list A)
    (id : Uuid) (p : A) :
  (match find (fun i => id_of i =? id) l with
   | Some item => Ok item
   | None => Err NOT_FOUND
   end) = Err NOT_FOUND ->
  (match find (fun i => id_of i =? id) (l ++ c) with
   | Some item => Ok item
   | None => Err NOT_FOUND
   end) = Ok p ->
  In p c /\ id_of p = id.
Proof.
  intros H1 H2.
  apply (proj1 (get_outcome _ id_of l id)) in H1.
  apply get_ok in H2 as (pre & post & Hl & Hid & _).
  split; [|exact Hid].
  assert (Hin : In p (l ++ c)) by (rewrite Hl; apply in_or_app; right; left; reflexivity).
  apply in_app_or in Hin as [Hin|Hin]; [|exact Hin].
  exfalso. apply H1. rewrite <- Hid. apply in_map, Hin.
Qed.

(** An id that get-by-id did not find, but finds after further requests,
    belongs to a record one of those requests created. *)
Theorem found_later_was_created (st : AppState) (ops : list Op) :
  (forall id p, get_project st id = Err NOT_FOUND ->
     get_project (fst (run st ops)) id = Ok p ->
     In p (created_projects (snd (run st ops))) /\ Project.id p = id) /\
  (forall id p, get_task st id = Err NOT_FOUND ->
     get_task (fst (run st ops)) id = Ok p ->
     In p (created_tasks (snd (run st ops))) /\ Task.id p = id) /\
  (forall id p, get_customer st id = Err NOT_FOUND ->
     get_customer (fst (run st ops)) id = Ok p ->
     In p (created_customers (snd (run st ops))) /\ Customer.id p = id).
Proof.
  unfold get_project, get_task, get_customer.
  rewrite run_projects, run_tasks, run_customers.
  split; [|split]; intros i p; apply found_in_extension.
Qed.

Lemma found_later_was_created_witness :
  get_project AppState_new 7 = Err NOT_FOUND /\
  get_project (fst (run AppState_new
    [CreateProject 7 0 (CreateProjectRequest.mk "alpha" "open" 10)])) 7
    = Ok (build_project 7 0 (CreateProjectRequest.mk "alpha" "open" 10)) /\
  In (build_project 7 0 (CreateProjectRequest.mk "alpha" "open" 10))
     (created_projects (snd (run AppState_new
        [CreateProject 7 0 (CreateProjectRequest.mk "alpha" "open" 10)]))).
Proof.
  assert (H1 : get_project AppState_new 7 = Err NOT_FOUND) by reflexivity.
  assert (H2 : get_project (fst (run AppState_new
    [CreateProject 7 0 (CreateProjectRequest.mk "alpha" "open" 10)])) 7
    = Ok (build_project 7 0 (CreateProjectRequest.mk "alpha" "open" 10)))
    by reflexivity.
  split; [exact H1|]. split; [exact H2|].
  exact (proj1 (proj1 (found_later_was_created _ _) _ _ H1 H2)).
Defined.

(** Two requests on different kinds commute: served in either order they
    leave the same state and each gets the same response. *)
Theorem different_kinds_commute (st : AppState) (op1 op2 : Op) :
  op_kind op1 <> op_kind op2 ->
  fst (run st [op1; op2]) = fst (run st [op2; op1]) /\
  snd (run st [op1; op2]) = rev (snd (run st [op2; op1])).
Proof.
  intro Hk. destruct op1, op2; cbn in Hk; try congruence;
    split; reflexivity.
Qed.

Lemma different_kinds_commute_witness :
  op_kind (CreateProject 7 0 (CreateProjectRequest.mk "alpha" "open" 10))
    <> op_kind (GetTask 7) /\
  fst (run AppState_new [CreateProject 7 0 (CreateProjectRequest.mk "alpha" "open" 10);
                         GetTask 7])
  = fst (run AppState_new [GetTask 7;
                           CreateProject 7 0 (CreateProjectRequest.mk "alpha" "open" 10)]).
Proof.
  assert (H : op_kind (CreateProject 7 0 (CreateProjectRequest.mk "alpha" "open" 10))
                <> op_kind (GetTask 7)) by discriminate.
  split; [exact H|].
  exact (proj1 (different_kinds_commute _ _ _ H)).
Defined.

(** A sequence of list and get requests leaves the state unchanged, and each
    of them answers what it would answer on the initial state. *)
Theorem read_only_run (st : AppState) (ops : list Op) :
  forallb (fun op => negb (is_create op)) ops = true ->
  fst (run st ops) = st /\ snd (run st ops) = map (fun op => snd (step st op)) ops.
Proof.
  induction ops as [|op ops IH]; intro H; [split; reflexivity|].
  cbn [forallb] in H. apply andb_prop in H as [H1 H2].
  assert (Hs : fst (step st op) = st) by (destruct op; try discriminate; reflexivity).
  rewrite run_cons. cbn [fst snd map]. rewrite Hs.
  destruct (IH H2) as [E1 E2]. rewrite E1, E2. split; reflexivity.
Qed.

Lemma read_only_run_witness :
  forallb (fun op => negb (is_create op)) [ListProjects; GetProject 7; ListTasks] = true /\
  fst (run (fst (create_project 7 0 (CreateProjectRequest.mk "alpha" "open" 10)
                   AppState_new))
           [ListProjects; GetProject 7; ListTasks])
  = fst (create_project 7 0 (CreateProjectRequest.mk "alpha" "open" 10) AppState_new).
Proof.
  assert (H : forallb (fun op => negb (is_create op))
                [ListProjects; GetProject 7; ListTasks] = true) by reflexivity.
  split; [exact H|]. exact (proj1 (read_only_run _ _ H)).
Defined.

(** Every response carries status 200, 201 or 404: 201 exactly for the
    creates, 404 exactly for a get whose id is not stored, 200 otherwise;
    no other status is ever produced by the handlers. *)
Theorem response_statuses (st : AppState) (op : Op) :
  (response_status (snd (step st op)) = CREATED <-> is_create op = true) /\
  (response_status (snd (step st op)) = NOT_FOUND <->
   match op with
   | GetProject id => ~ In id (map Project.id (projects st))
   | GetTask id => ~ In id (map Task.id (tasks st))
   | GetCustomer id => ~ In id (map Customer.id (customers st))
   | _ => False
   end) /\
  (response_status (snd (step st op)) = OK_STATUS \/
   response_status (snd (step st op)) = CREATED \/
   response_status (snd (step st op)) = NOT_FOUND).
Proof.
  destruct op; cbn [step create_project create_task create_customer fst snd];
    try (cbn; intuition discriminate);
    [ unfold get_project; rewrite <- find_id_none
    | unfold get_task; rewrite <- find_id_none
    | unfold get_customer; rewrite <- find_id_none ];
    match goal with |- context [find ?f ?l] =>
      destruct (find f l); cbn; intuition discriminate end.
Qed.

Section ConcurrentMore.
Import Concurrent.
Context {Req T : Type} (build : Uuid -> DateTime -> Req -> T).





End ConcurrentMore.



(** From any state, after any sequence of requests, each list returns its
    former answer followed by the entities the creates of its kind returned,
    in request order. *)
Theorem list_after_run (st : AppState) (ops : list Op) :
  list_projects (fst (run st ops)) =
    list_projects st ++ created_projects (snd (run st ops)) /\
  list_tasks (fst (run st ops)) =
    list_tasks st ++ created_tasks (snd (run st ops)) /\
  list_customers (fst (run st ops)) =
    list_customers st ++ created_customers (snd (run st ops)).
Proof.
  unfold list_projects, list_tasks, list_customers.
  split; [apply run_projects | split; [apply run_tasks | apply run_customers]].
Qed.
